(** * CollabVM plugin manager: handshake, registry and start-up scan

    A shallow embedding of [src/core/PluginManager.cpp] (namespace
    [collabvm::core]) and of the configuration-store contract exercised by
    [server/test/core/ConfigStore.cpp].

    Conventions of the embedding.
    - The process-wide statics [g_PluginSos] and [g_ServerPlugins] are fields
      of an explicit [State], threaded through every function.
    - Everything that crosses the module boundary (a symbol lookup
      [so.get<T>(name)], a call through a resolved export) is appended to a
      ghost trace [calls], so that ordering properties can be stated.
    - The library calls that raise are modelled as raising: a lookup
      [so.get<T>(name)] of a symbol the module lacks, the constructor
      [boost::dll::shared_library(path)] on a file that cannot be mapped
      (both [boost::system::system_error]) and a failing
      [std::filesystem::create_directory] ([filesystem_error]).  The
      manager has no [try]/[catch], so a raised exception leaves every
      function on its way out.
    - A call into a module may call back into the host: the module holds
      the [IPluginApi] table it was given and can write to the log
      through [WriteLogMessageImpl].
    - [HandlePluginLoad] is a recursive template; its run-time recursion is
      bounded by a [fuel] argument and shown to need two units at most. *)

From Stdlib Require Import ZArith.
From stdpp Require Import base option list strings gmap.

Local Open Scope Z_scope.

Module PluginManager.

(** ** Data *)

(** [enum class PluginLoadError]. *)
Inductive PluginLoadError : Set :=
  | NoError
  | NotPlugin
  | AbiMismatch
  | ExportNotFound
  | NotServerPlugin
  | NotCorePlugin.

#[global] Instance PluginLoadError_eq_dec : EqDecision PluginLoadError.
Proof. solve_decision. Defined.

(** The export names the manager looks up. *)
Inductive Symbol : Set :=
  | collabvm_plugin_abi_version
  | collabvm_plugin_init_api
  | collabvm_plugin_make_serverplugin
  | collabvm_plugin_delete_serverplugin.

#[global] Instance Symbol_eq_dec : EqDecision Symbol.
Proof. solve_decision. Defined.

(** An object pointer ([plugin::IServerPlugin*]); [nullptr] is [0]. *)
Definition ptr : Set := Z.
Definition nullptr : ptr := 0.

(** spdlog calls, kept as written: severity, format string, arguments.
    [LogLevel] is also [plugin::IPluginApi::LogLevel]. *)
Inductive LogLevel : Set := Info | Warning | Error.

#[global] Instance LogLevel_eq_dec : EqDecision LogLevel.
Proof. solve_decision. Defined.

Record LogEntry : Set := {
  level : LogLevel;
  format : string;
  args : list string
}.

#[global] Instance LogEntry_eq_dec : EqDecision LogEntry.
Proof. solve_decision. Defined.

(** A mapped module, seen through its exports.  A field is [None] when
    the module has no such symbol.
    - [abi_version]: the [int] the export returns;
    - [init_api]: present or not (it returns [void]);
    - [make_serverplugin]: the pointer the factory returns;
    - [delete_serverplugin]: the address of the destructor export;
    - [writes s]: the messages the module sends to the host's
      [WriteLogMessage] while its export [s] runs, each as a severity
      and the text [vsprintf] leaves in the host's buffer. *)
Record shared_library : Set := {
  abi_version : option Z;
  init_api : option unit;
  make_serverplugin : option ptr;
  delete_serverplugin : option Z;
  writes : Symbol -> list (LogLevel * string)
}.

(** Boundary crossings and file-system actions, in program order.
    [Handshake core ctrl] marks the entry of the instantiation
    [PluginHandshake<core, ctrl>]; [CreateDirectory ok] is a call of
    [std::filesystem::create_directory] together with its outcome. *)
Inductive Event : Set :=
  | Handshake (core ctrl : bool)
  | Resolve (s : Symbol)
  | Invoke (s : Symbol)
  | CreateDirectory (created : bool).

#[global] Instance Event_eq_dec : EqDecision Event.
Proof. solve_decision. Defined.

(** The exceptions the libraries raise: [boost::system::system_error]
    from a symbol lookup and from the library constructor,
    [std::filesystem::filesystem_error] from [create_directory]. *)
Inductive Exception : Set :=
  | symbol_not_found (s : Symbol)
  | library_not_loaded (path : string)
  | filesystem_error.

#[global] Instance Exception_eq_dec : EqDecision Exception.
Proof. solve_decision. Defined.

(** The statics of the translation unit plus the two ghost logs.  An
    element of [g_PluginSos] is [None] for a default-constructed (empty)
    [boost::dll::shared_library]. *)
Record State : Set := {
  g_PluginSos : list (option shared_library);
  g_ServerPlugins : list ptr;
  calls : list Event;
  spdlog : list LogEntry
}.

Definition initial : State :=
  {| g_PluginSos := []; g_ServerPlugins := []; calls := []; spdlog := [] |}.

(** What [PluginManager::Init] sees of the outside world: the two
    predicates on [current_path() / "plugins"]; whether a
    [create_directory] there completes ([false]: it raises); the paths
    [directory_iterator] yields; and the module
    [boost::dll::shared_library(path)] maps ([None]: the file cannot be
    mapped and the constructor raises). *)
Record Filesystem : Type := {
  is_directory : bool;
  exists_ : bool;
  create_directory : bool;
  directory_iterator : list string;
  load : string -> option shared_library
}.

(** ** State monad with exceptions and a recursion budget *)

(** How a call ends: with a value, or by an exception on its way to the
    caller. *)
Inductive Result (A : Type) : Type :=
  | Return (a : A)
  | Throw (e : Exception).

Arguments Return {A} a.
Arguments Throw {A} e.

Definition M (A : Type) : Type := State -> option (Result A * State).

Definition ret {A : Type} (a : A) : M A := fun st => Some (Return a, st).

Definition throw {A : Type} (e : Exception) : M A :=
  fun st => Some (Throw e, st).

Definition bind {A B : Type} (m : M A) (k : A -> M B) : M B :=
  fun st => match m st with
            | Some (Return a, st') => k a st'
            | Some (Throw e, st') => Some (Throw e, st')
            | None => None
            end.

Definition out_of_fuel {A : Type} : M A := fun _ => None.

Notation "'do' x <- c ; k" := (bind c (fun x => k))
  (at level 10, x name, c at level 100, k at level 200).
Notation "c ;; k" := (bind c (fun _ => k))
  (at level 100, k at level 200, right associativity).

Definition emit (e : Event) : M unit := fun st =>
  Some (Return tt, {| g_PluginSos := g_PluginSos st;
                      g_ServerPlugins := g_ServerPlugins st;
                      calls := calls st ++ [e];
                      spdlog := spdlog st |}).

Definition log (l : LogLevel) (fmt : string) (a : list string) : M unit :=
  fun st =>
  Some (Return tt,
        {| g_PluginSos := g_PluginSos st;
           g_ServerPlugins := g_ServerPlugins st;
           calls := calls st;
           spdlog := spdlog st ++ [{| level := l; format := fmt; args := a |}] |}).

Fixpoint for_each {A : Type} (l : list A) (body : A -> M unit) : M unit :=
  match l with
  | [] => ret tt
  | x :: l' => body x ;; for_each l' body
  end.

(** [PluginApiImpl::WriteLogMessageImpl], after its [vsprintf]: [buf]
    holds the formatted text, assumed to fit the 2048 bytes of the
    buffer, and goes to the spdlog call of the same severity. *)
Definition WriteLogMessageImpl (logLevel : LogLevel) (buf : string) : M unit :=
  match logLevel with
  | Info => log Info buf []
  | Warning => log Warning buf []
  | Error => log Error buf []
  end.

(** [so.get<T>(name)]: the lookup is traced; it yields the export, or
    raises [system_error] when the module has no such symbol.  Its value
    is kept as an [option], the pointer the code then tests against
    null: a lookup that returns never gives null. *)
Definition get {A : Type} (s : Symbol) (export : option A) : M (option A) :=
  emit (Resolve s) ;;
  match export with
  | Some a => ret (Some a)
  | None => throw (symbol_not_found s)
  end.

(** A call through a resolved export of [so]: the call is traced, and
    what the module writes through the host API meanwhile is logged. *)
Definition invoke (so : shared_library) (s : Symbol) : M unit :=
  emit (Invoke s) ;;
  for_each (writes so s) (fun m => WriteLogMessageImpl (fst m) (snd m)).

(** [g_ServerPlugins.push_back(plugin)]. *)
Definition push_back_ServerPlugins (p : ptr) : M unit := fun st =>
  Some (Return tt, {| g_PluginSos := g_PluginSos st;
                      g_ServerPlugins := g_ServerPlugins st ++ [p];
                      calls := calls st;
                      spdlog := spdlog st |}).

(** [g_PluginSos.emplace_back(...)]. *)
Definition emplace_back_PluginSos (so : shared_library) : M unit := fun st =>
  Some (Return tt, {| g_PluginSos := g_PluginSos st ++ [Some so];
                      g_ServerPlugins := g_ServerPlugins st;
                      calls := calls st;
                      spdlog := spdlog st |}).

(** [std::vector::resize(n)]: truncate, or pad with empty handles. *)
Definition resize {A : Type} (n : nat) (d : A) (l : list A) : list A :=
  take n l ++ replicate (n - length l) d.

Definition resize_PluginSos (n : nat) : M unit := fun st =>
  Some (Return tt, {| g_PluginSos := resize n None (g_PluginSos st);
                      g_ServerPlugins := g_ServerPlugins st;
                      calls := calls st;
                      spdlog := spdlog st |}).

(** ** The plugin manager *)

Section Manager.

(** [plugin::PLUGIN_ABI_VERSION], declared in a header outside the
    sources at hand. *)
Variable PLUGIN_ABI_VERSION : Z.

(** [HandlePluginLoad<core, ctrl>] has no [return] on the path where the
    handshake reports [NoError]: control flows off the end of a non-void
    function.  [off_end core ctrl] stands for whatever value the caller
    then reads; every result below holds for all choices of it. *)
Variable off_end : bool -> bool -> PluginLoadError.

(** [template<bool CorePluginHandShake, bool ControllerPluginHandShake>
     PluginLoadError PluginHandshake(shared_library& so)]. *)
Definition PluginHandshake (CorePluginHandShake ControllerPluginHandShake : bool)
    (so : shared_library) : M PluginLoadError :=
  emit (Handshake CorePluginHandShake ControllerPluginHandShake) ;;
  do collabvm_plugin_abi_version_ <-
    get collabvm_plugin_abi_version (abi_version so) ;
  match collabvm_plugin_abi_version_ with
  | None => ret NotPlugin
  | Some v =>
    invoke so collabvm_plugin_abi_version ;;
    if negb (v =? PLUGIN_ABI_VERSION) then ret AbiMismatch
    else
      do collabvm_plugin_init_api_ <-
        get collabvm_plugin_init_api (init_api so) ;
      match collabvm_plugin_init_api_ with
      | None => ret ExportNotFound
      | Some _ =>
        invoke so collabvm_plugin_init_api ;;
        if negb CorePluginHandShake && negb ControllerPluginHandShake then
          do make_ <- get collabvm_plugin_make_serverplugin
                          (make_serverplugin so) ;
          do delete_ <- get collabvm_plugin_delete_serverplugin
                            (delete_serverplugin so) ;
          match make_, delete_ with
          | Some plugin, Some _ =>
            invoke so collabvm_plugin_make_serverplugin ;;
            if plugin =? nullptr then ret NotServerPlugin
            else push_back_ServerPlugins plugin ;; ret NoError
          | _, _ => ret ExportNotFound
          end
        else if CorePluginHandShake then
          (* coreplugin handshake: TODO *)
          ret NoError
        else if negb CorePluginHandShake && ControllerPluginHandShake then
          (* controllerplugin handshake: TODO *)
          ret NoError
        else ret NoError
      end
  end.

(** [template<bool coreplugin, bool controllerplugin>
     PluginLoadError HandlePluginLoad(shared_library& so)]. *)
Fixpoint HandlePluginLoad (fuel : nat) (coreplugin controllerplugin : bool)
    (so : shared_library) : M PluginLoadError :=
  match fuel with
  | O => out_of_fuel
  | S fuel' =>
    do res <- PluginHandshake coreplugin controllerplugin so ;
    if bool_decide (res <> NoError) then
      match res with
      | NotServerPlugin => HandlePluginLoad fuel' true false so
      | NotCorePlugin => HandlePluginLoad fuel' false true so
      | _ => ret res
      end
    else ret (off_end coreplugin controllerplugin)
  end.

(** [bool PluginManager::LoadPlugin(const std::filesystem::path& path)].
    The library is constructed first, then moved into [g_PluginSos]. *)
Definition LoadPlugin (fuel : nat) (fs : Filesystem) (path : string) : M bool :=
  match load fs path with
  | None => throw (library_not_loaded path)
  | Some so =>
    emplace_back_PluginSos so ;;
    do res <- HandlePluginLoad fuel false false so ;
    match res with
    | ExportNotFound =>
      log Error "plugin {} is probably NOT a collabvm server plugin" [path] ;;
      ret false
    | AbiMismatch =>
      log Error "plugin {} has an mismatching CollabVM ABI version." [path] ;;
      ret false
    | _ => ret true
    end
  end.

(** [bool PluginManager::Init()]. *)
Definition Init (fuel : nat) (fs : Filesystem) : M bool :=
  resize_PluginSos 5 ;;
  (if negb (is_directory fs) || negb (exists_ fs) then
     log Info "PluginManager::Init: Plugins folder not found. Creating folder." [] ;;
     emit (CreateDirectory (create_directory fs)) ;;
     if create_directory fs then ret tt else throw filesystem_error
   else ret tt) ;;
  for_each (directory_iterator fs) (fun it =>
    log Info "Going to load plugin {}" [it] ;;
    do ok <- LoadPlugin fuel fs it ;
    if negb ok then log Warning "Plugin {} failed to load :(" [it]
    else ret tt) ;;
  ret true.

(** [void PluginManager::UnloadPlugins()]. *)
Definition UnloadPlugins : M unit :=
  log Info "PluginManager::UnloadPlugins: TODO" [].

End Manager.

End PluginManager.

(** ** Observations on traces and states *)

Module Observe.
Import PluginManager.

(** The role a handshake instantiation plays, read off the
    [if constexpr] chain of [PluginHandshake]. *)
Inductive PluginKind : Set := Server | Core | Controller.

#[global] Instance PluginKind_eq_dec : EqDecision PluginKind.
Proof. solve_decision. Defined.

Definition kind_of (core ctrl : bool) : PluginKind :=
  if negb core && negb ctrl then Server
  else if core then Core
  else Controller.

(** The kinds attempted, in order. *)
Fixpoint probes (t : list Event) : list PluginKind :=
  match t with
  | [] => []
  | Handshake core ctrl :: t' => kind_of core ctrl :: probes t'
  | _ :: t' => probes t'
  end.

(** How often an event occurs in a trace. *)
Definition occurrences (e : Event) (t : list Event) : nat :=
  length (filter (fun x => x = e) t).

(** The symbols looked up in a trace. *)
Fixpoint resolved (t : list Event) : list Symbol :=
  match t with
  | [] => []
  | Resolve s :: t' => s :: resolved t'
  | _ :: t' => resolved t'
  end.

(** The log lines a call of the export [s] of [so] leaves behind. *)
Definition written (so : shared_library) (s : Symbol) : list LogEntry :=
  map (fun m => {| level := fst m; format := snd m; args := [] |})
      (writes so s).

(** [st] after the boundary crossings [evs], the registrations [ps] and
    the log lines [ws]. *)
Definition extend (evs : list Event) (ps : list ptr) (ws : list LogEntry)
    (st : State) : State :=
  {| g_PluginSos := g_PluginSos st;
     g_ServerPlugins := g_ServerPlugins st ++ ps;
     calls := calls st ++ evs;
     spdlog := spdlog st ++ ws |}.

(** The log entries of severity [Warning] that name [path]. *)
Definition warnings_naming (path : string) (l : list LogEntry) : list LogEntry :=
  filter (fun e => level e = Warning /\ path ∈ args e) l.

(** The events of one complete handshake pass up to and including the
    call of [init_api]. *)
Definition preamble (core ctrl : bool) : list Event :=
  [Handshake core ctrl;
   Resolve collabvm_plugin_abi_version; Invoke collabvm_plugin_abi_version;
   Resolve collabvm_plugin_init_api; Invoke collabvm_plugin_init_api].

Definition server_lookups : list Event :=
  [Resolve collabvm_plugin_make_serverplugin;
   Resolve collabvm_plugin_delete_serverplugin].

(** What a module writes during the part of a pass that [preamble]
    covers. *)
Definition preamble_written (so : shared_library) : list LogEntry :=
  written so collabvm_plugin_abi_version ++ written so collabvm_plugin_init_api.

(** The seven ways a load attempt [HandlePluginLoad<>(so)] can go, with
    its end (a value, or an exception), the boundary crossings made, the
    handles registered and the lines the module wrote.
    [HandlePluginLoad_cases] below shows the code follows exactly one
    of them. *)
Inductive load_case (abi : Z) (off_end : bool -> bool -> PluginLoadError)
    (so : shared_library) :
    Result PluginLoadError -> list Event -> list ptr -> list LogEntry -> Prop :=
  | load_no_abi :
      abi_version so = None ->
      load_case abi off_end so
        (Throw (symbol_not_found collabvm_plugin_abi_version))
        [Handshake false false; Resolve collabvm_plugin_abi_version] [] []
  | load_mismatch v :
      abi_version so = Some v -> v <> abi ->
      load_case abi off_end so (Return AbiMismatch)
        [Handshake false false; Resolve collabvm_plugin_abi_version;
         Invoke collabvm_plugin_abi_version] []
        (written so collabvm_plugin_abi_version)
  | load_no_init :
      abi_version so = Some abi -> init_api so = None ->
      load_case abi off_end so
        (Throw (symbol_not_found collabvm_plugin_init_api))
        [Handshake false false; Resolve collabvm_plugin_abi_version;
         Invoke collabvm_plugin_abi_version;
         Resolve collabvm_plugin_init_api] []
        (written so collabvm_plugin_abi_version)
  | load_no_make :
      abi_version so = Some abi -> is_Some (init_api so) ->
      make_serverplugin so = None ->
      load_case abi off_end so
        (Throw (symbol_not_found collabvm_plugin_make_serverplugin))
        (preamble false false ++ [Resolve collabvm_plugin_make_serverplugin])
        [] (preamble_written so)
  | load_no_delete :
      abi_version so = Some abi -> is_Some (init_api so) ->
      is_Some (make_serverplugin so) ->
      delete_serverplugin so = None ->
      load_case abi off_end so
        (Throw (symbol_not_found collabvm_plugin_delete_serverplugin))
        (preamble false false ++ server_lookups) [] (preamble_written so)
  | load_null :
      abi_version so = Some abi -> is_Some (init_api so) ->
      make_serverplugin so = Some nullptr ->
      is_Some (delete_serverplugin so) ->
      load_case abi off_end so (Return (off_end true false))
        (preamble false false ++ server_lookups
         ++ [Invoke collabvm_plugin_make_serverplugin]
         ++ preamble true false) []
        (preamble_written so
         ++ written so collabvm_plugin_make_serverplugin
         ++ preamble_written so)
  | load_server p :
      abi_version so = Some abi -> is_Some (init_api so) ->
      make_serverplugin so = Some p -> p <> nullptr ->
      is_Some (delete_serverplugin so) ->
      load_case abi off_end so (Return (off_end false false))
        (preamble false false ++ server_lookups
         ++ [Invoke collabvm_plugin_make_serverplugin]) [p]
        (preamble_written so
         ++ written so collabvm_plugin_make_serverplugin).


(** [preceded a b seen t]: every [b] in [t] comes after an [a] (or
    [seen] holds at the start). *)
Fixpoint preceded (a b : Event) (seen : bool) (t : list Event) : bool :=
  match t with
  | [] => true
  | e :: t' =>
    (if bool_decide (e = b) then seen else true)
    && preceded a b (seen || bool_decide (e = a)) t'
  end.

(** [LoadPlugin] after the load attempt: the two reported errors, and
    everything else. *)
Definition reported (path : string) (res : PluginLoadError) : list LogEntry :=
  match res with
  | ExportNotFound =>
    [{| level := Error;
        format := "plugin {} is probably NOT a collabvm server plugin";
        args := [path] |}]
  | AbiMismatch =>
    [{| level := Error;
        format := "plugin {} has an mismatching CollabVM ABI version.";
        args := [path] |}]
  | _ => []
  end.

Definition accepted (res : PluginLoadError) : bool :=
  match res with
  | ExportNotFound | AbiMismatch => false
  | _ => true
  end.

(** What [LoadPlugin] makes of the end of the load attempt: its own end,
    and the error it logs. *)
Definition answer (out : Result PluginLoadError) : Result bool :=
  match out with
  | Return res => Return (accepted res)
  | Throw e => Throw e
  end.

Definition reported_after (path : string) (out : Result PluginLoadError)
    : list LogEntry :=
  match out with
  | Return res => reported path res
  | Throw _ => []
  end.





(** [grows st st']: from [st] to [st'] the registry and the trace of
    boundary crossings have only been appended to, no null handle has
    been registered and no destructor export has been called. *)
Definition grows (st st' : State) : Prop :=
  exists ps evs,
    g_ServerPlugins st' = g_ServerPlugins st ++ ps /\
    calls st' = calls st ++ evs /\
    Forall (fun h => h <> nullptr) ps /\
    Invoke collabvm_plugin_delete_serverplugin ∉ evs.

(** [ends m st]: run from [st], [m] comes to an end (a value or an
    exception) in a state grown from [st]. *)
Definition ends {A : Type} (m : M A) (st : State) : Prop :=
  exists out st', m st = Some (out, st') /\ grows st st'.

(** The condition under which [Init] creates the plugins directory. *)
Definition directory_missing (fs : Filesystem) : bool :=
  negb (is_directory fs) || negb (exists_ fs).

(** The messages of [Init]. *)
Definition creating_folder : LogEntry :=
  {| level := Info;
     format := "PluginManager::Init: Plugins folder not found. Creating folder.";
     args := [] |}.

Definition going_to_load (path : string) : LogEntry :=
  {| level := Info; format := "Going to load plugin {}"; args := [path] |}.

End Observe.

(** ** The configuration store (collaborator contract) *)

Module ConfigStore.

(** The value types the test suite stores and asks for: [bool],
    [std::string], [std::uint64_t] and [std::int64_t]. *)
Inductive Type_ : Set := TBool | TString | TUInt64 | TInt64.

#[global] Instance Type_eq_dec : EqDecision Type_.
Proof. solve_decision. Defined.

Inductive Value : Set :=
  | VBool (b : bool)
  | VString (s : string)
  | VUInt64 (n : Z)
  | VInt64 (n : Z).

Definition type_of (v : Value) : Type_ :=
  match v with
  | VBool _ => TBool
  | VString _ => TString
  | VUInt64 _ => TUInt64
  | VInt64 _ => TInt64
  end.

(** [static_cast<std::uint64_t>(n)]. *)
Definition uint64 (n : Z) : Value := VUInt64 (n mod 2 ^ 64).

(** [ConfigStore::NonExistentValue] and [ConfigStore::InvalidType]. *)
Inductive Exception : Set := NonExistentValue | InvalidType.

(** The class under test, [core/config/ConfigStore.hpp], is not among
    the sources; only its test file is.  The store is taken to be a
    finite map from keys to typed values, [store[key]] selecting a cell
    on which the five operations of the contract act. *)

(** Modelled from the spec: [ConfigStore] cell operation
    [store[key].Exists() → bool] (the class is missing from the
    sources). *)
Definition Exists (key : string) (store : gmap string Value) : bool :=
  bool_decide (is_Some (store !! key)).

(** Modelled from the spec: [ConfigStore] cell operation
    [store[key].Set<T>(value)] (the class is missing from the sources). *)
Definition Set_ (key : string) (v : Value) (store : gmap string Value)
    : gmap string Value :=
  <[key := v]> store.

(** Modelled from the spec: [ConfigStore] cell operation
    [store[key].As<T>() → T], which fails with [NonExistentValue] if
    absent or [InvalidType] if the stored type differs (the class is
    missing from the sources). *)
Definition As (T : Type_) (key : string) (store : gmap string Value)
    : Exception + Value :=
  match store !! key with
  | None => inl NonExistentValue
  | Some v => if bool_decide (type_of v = T) then inr v else inl InvalidType
  end.

(** Modelled from the spec: [ConfigStore] cell operation
    [store[key].Is<T>() → bool] (the class is missing from the
    sources). *)
Definition Is (T : Type_) (key : string) (store : gmap string Value) : bool :=
  match store !! key with
  | None => false
  | Some v => bool_decide (type_of v = T)
  end.

(** Modelled from the spec: [ConfigStore] cell operation
    [store[key].Remove()] (the class is missing from the sources). *)
Definition Remove (key : string) (store : gmap string Value)
    : gmap string Value :=
  delete key store.

End ConfigStore.

(** ** Concrete modules and directories *)

Module Samples.
Import PluginManager.

(** The host ABI number used in the worked examples. *)
Definition host_abi : Z := 1.

(** A build in which a function that flows off its end leaves the last
    handshake result ([NoError]) in the return register. *)
Definition returns_res (core ctrl : bool) : PluginLoadError := NoError.

(** A module that never writes to the host's log. *)
Definition silent (s : Symbol) : list (LogLevel * string) := [].

(** The stub of the end-to-end test: matching [abi_version], a no-op
    [init_api], a factory returning the sentinel [4096] and a
    destructor export at address [8192]. *)
Definition stub_server : shared_library :=
  {| abi_version := Some 1; init_api := Some tt;
     make_serverplugin := Some 4096; delete_serverplugin := Some 8192;
     writes := silent |}.

(** The same module but for the address of its destructor export. *)
Definition stub_server' : shared_library :=
  {| abi_version := Some 1; init_api := Some tt;
     make_serverplugin := Some 4096; delete_serverplugin := Some 12288;
     writes := silent |}.

(** A module whose server factory returns null. *)
Definition null_factory : shared_library :=
  {| abi_version := Some 1; init_api := Some tt;
     make_serverplugin := Some nullptr; delete_serverplugin := Some 8192;
     writes := silent |}.

(** A module with neither server export. *)
Definition no_factory : shared_library :=
  {| abi_version := Some 1; init_api := Some tt;
     make_serverplugin := None; delete_serverplugin := None;
     writes := silent |}.

(** A module built against another ABI. *)
Definition old_abi : shared_library :=
  {| abi_version := Some 0; init_api := Some tt;
     make_serverplugin := Some 4096; delete_serverplugin := Some 8192;
     writes := silent |}.

(** A shared object that is no plugin at all. *)
Definition not_a_plugin : shared_library :=
  {| abi_version := None; init_api := None;
     make_serverplugin := None; delete_serverplugin := None;
     writes := silent |}.

(** A plugins directory holding the single file [path], mapped to [so]. *)
Definition single (path : string) (so : shared_library) : Filesystem :=
  {| is_directory := true; exists_ := true; create_directory := true;
     directory_iterator := [path]; load := fun _ => Some so |}.

(** A plugins directory in which two names lead to the same module
    (a file and a link to it). *)
Definition linked_twice (so : shared_library) : Filesystem :=
  {| is_directory := true; exists_ := true; create_directory := true;
     directory_iterator := ["plugins/stub.so"; "plugins/stub-link.so"];
     load := fun _ => Some so |}.

(** A plugins directory holding a text file, which cannot be mapped,
    and after it the stub plugin. *)
Definition notes_then_stub : Filesystem :=
  {| is_directory := true; exists_ := true; create_directory := true;
     directory_iterator := ["plugins/notes.txt"; "plugins/stub.so"];
     load := fun p => if String.eqb p "plugins/stub.so"
                      then Some stub_server else None |}.

(** An existing, empty plugins directory. *)
Definition empty_directory : Filesystem :=
  {| is_directory := true; exists_ := true; create_directory := true;
     directory_iterator := []; load := fun _ => None |}.

(** No plugins directory yet; it can be created, and is empty then. *)
Definition first_run : Filesystem :=
  {| is_directory := false; exists_ := false; create_directory := true;
     directory_iterator := []; load := fun _ => None |}.

(** No plugins directory, and no permission to create one. *)
Definition read_only_cwd : Filesystem :=
  {| is_directory := false; exists_ := false; create_directory := false;
     directory_iterator := []; load := fun _ => None |}.

End Samples.

(** * Properties *)

Import PluginManager Observe Samples.

(** ** Bookkeeping *)

(** Membership in an explicit trace, by inspection of its elements. *)
Ltac decide_trace :=
  repeat match goal with
         | H : _ ∈ _ :: _ |- _ => apply elem_of_cons in H as [H|H]
         | H : _ ∈ [] |- _ => by apply elem_of_nil in H
         | H : _ ∈ _ ++ _ |- _ => apply elem_of_app in H as [H|H]
         end;
  try congruence.

Lemma extend_nil (st : State) : extend [] [] [] st = st.
Proof. destruct st; unfold extend; cbn. by rewrite !app_nil_r. Qed.

Lemma extend_extend (e1 e2 : list Event) (p1 p2 : list ptr)
    (w1 w2 : list LogEntry) (st : State) :
  extend e2 p2 w2 (extend e1 p1 w1 st)
  = extend (e1 ++ e2) (p1 ++ p2) (w1 ++ w2) st.
Proof. unfold extend; cbn. by rewrite !app_assoc. Qed.

Lemma probes_app (t1 t2 : list Event) :
  probes (t1 ++ t2) = probes t1 ++ probes t2.
Proof.
  induction t1 as [|e t1 IH]; [done|].
  destruct e; cbn; by rewrite IH.
Qed.

Lemma resolved_app (t1 t2 : list Event) :
  resolved (t1 ++ t2) = resolved t1 ++ resolved t2.
Proof.
  induction t1 as [|e t1 IH]; [done|].
  destruct e; cbn; by rewrite IH.
Qed.

Lemma occurrences_app (e : Event) (t1 t2 : list Event) :
  occurrences e (t1 ++ t2) = (occurrences e t1 + occurrences e t2)%nat.
Proof. unfold occurrences. by rewrite filter_app, length_app. Qed.

(** ** Primitive steps *)

Lemma bind_Return {A B : Type} (m : M A) (k : A -> M B) st a st' :
  m st = Some (Return a, st') -> bind m k st = k a st'.
Proof. intros H. unfold bind. by rewrite H. Qed.

Lemma bind_Throw {A B : Type} (m : M A) (k : A -> M B) st e st' :
  m st = Some (Throw e, st') -> bind m k st = Some (Throw e, st').
Proof. intros H. unfold bind. by rewrite H. Qed.

Lemma emit_run e st : emit e st = Some (Return tt, extend [e] [] [] st).
Proof. unfold emit, extend. by rewrite !app_nil_r. Qed.

Lemma log_run l fmt a st :
  log l fmt a st
  = Some (Return tt,
          extend [] [] [{| level := l; format := fmt; args := a |}] st).
Proof. unfold log, extend. by rewrite !app_nil_r. Qed.

Lemma push_back_run p st :
  push_back_ServerPlugins p st = Some (Return tt, extend [] [p] [] st).
Proof. unfold push_back_ServerPlugins, extend. by rewrite !app_nil_r. Qed.

Lemma get_found {A : Type} s (a : A) st :
  get s (Some a) st = Some (Return (Some a), extend [Resolve s] [] [] st).
Proof. unfold get. by rewrite (bind_Return _ _ _ _ _ (emit_run _ _)). Qed.

Lemma get_missing {A : Type} s st :
  get s (@None A) st
  = Some (Throw (symbol_not_found s), extend [Resolve s] [] [] st).
Proof. unfold get. by rewrite (bind_Return _ _ _ _ _ (emit_run _ _)). Qed.

(** What a module writes ends up in the log, in order. *)
Lemma write_all (ms : list (LogLevel * string)) st :
  for_each ms (fun m => WriteLogMessageImpl (fst m) (snd m)) st
  = Some (Return tt,
          extend [] []
            (map (fun m => {| level := fst m; format := snd m; args := [] |}) ms)
            st).
Proof.
  revert st. induction ms as [|[l buf] ms IH]; intros st.
  - cbn. by rewrite extend_nil.
  - cbn [for_each map].
    assert (WriteLogMessageImpl (fst (l, buf)) (snd (l, buf)) st
            = Some (Return tt,
                    extend [] []
                      [{| level := l; format := buf; args := [] |}] st)) as Hw
      by (destruct l; apply log_run).
    rewrite (bind_Return _ _ _ _ _ Hw), IH, extend_extend.
    by rewrite !app_nil_r.
Qed.

Lemma invoke_run so s st :
  invoke so s st = Some (Return tt, extend [Invoke s] [] (written so s) st).
Proof.
  unfold invoke. rewrite (bind_Return _ _ _ _ _ (emit_run _ _)).
  rewrite write_all, extend_extend. by rewrite !app_nil_r.
Qed.

(** ** One handshake pass *)

Section Handshake.

Variable abi : Z.

Ltac step :=
  first [ rewrite (bind_Return _ _ _ _ _ (emit_run _ _))
        | rewrite (bind_Return _ _ _ _ _ (invoke_run _ _ _))
        | rewrite (bind_Return _ _ _ _ _ (get_found _ _ _))
        | rewrite (bind_Throw _ _ _ _ _ (get_missing _ _))
        | rewrite (bind_Return _ _ _ _ _ (push_back_run _ _)) ];
  cbv beta iota.

Ltac finish :=
  unfold ret, throw;
  rewrite ?extend_extend;
  unfold preamble, server_lookups, preamble_written;
  cbn [app];
  rewrite ?app_nil_r, <- ?app_assoc;
  cbn [app];
  reflexivity.

Ltac run_handshake :=
  unfold PluginHandshake;
  repeat match goal with
         | H : _ = Some _ |- _ => rewrite H
         | H : _ = None |- _ => rewrite H
         end;
  repeat first
    [ step
    | rewrite Z.eqb_refl
    | match goal with
      | H : (_ =? _) = false |- _ => rewrite H
      end
    | progress cbn [negb andb] ];
  try finish.

Lemma handshake_no_abi core ctrl so st :
  abi_version so = None ->
  PluginHandshake abi core ctrl so st
  = Some (Throw (symbol_not_found collabvm_plugin_abi_version),
          extend [Handshake core ctrl; Resolve collabvm_plugin_abi_version]
            [] [] st).
Proof. intros Ha. run_handshake. Qed.

Lemma handshake_mismatch core ctrl so st v :
  abi_version so = Some v -> v <> abi ->
  PluginHandshake abi core ctrl so st
  = Some (Return AbiMismatch,
          extend [Handshake core ctrl; Resolve collabvm_plugin_abi_version;
                  Invoke collabvm_plugin_abi_version] []
            (written so collabvm_plugin_abi_version) st).
Proof. intros Ha Hne. apply Z.eqb_neq in Hne. run_handshake. Qed.

Lemma handshake_no_init core ctrl so st :
  abi_version so = Some abi -> init_api so = None ->
  PluginHandshake abi core ctrl so st
  = Some (Throw (symbol_not_found collabvm_plugin_init_api),
          extend [Handshake core ctrl; Resolve collabvm_plugin_abi_version;
                  Invoke collabvm_plugin_abi_version;
                  Resolve collabvm_plugin_init_api] []
            (written so collabvm_plugin_abi_version) st).
Proof. intros Ha Hi. run_handshake. Qed.

Lemma handshake_no_make so st :
  abi_version so = Some abi -> is_Some (init_api so) ->
  make_serverplugin so = None ->
  PluginHandshake abi false false so st
  = Some (Throw (symbol_not_found collabvm_plugin_make_serverplugin),
          extend (preamble false false
                  ++ [Resolve collabvm_plugin_make_serverplugin])
            [] (preamble_written so) st).
Proof. intros Ha [u Hi] Hm. run_handshake. Qed.

Lemma handshake_no_delete so st :
  abi_version so = Some abi -> is_Some (init_api so) ->
  is_Some (make_serverplugin so) -> delete_serverplugin so = None ->
  PluginHandshake abi false false so st
  = Some (Throw (symbol_not_found collabvm_plugin_delete_serverplugin),
          extend (preamble false false ++ server_lookups)
            [] (preamble_written so) st).
Proof. intros Ha [u Hi] [p Hm] Hd. run_handshake. Qed.

Lemma handshake_null so st :
  abi_version so = Some abi -> is_Some (init_api so) ->
  make_serverplugin so = Some nullptr -> is_Some (delete_serverplugin so) ->
  PluginHandshake abi false false so st
  = Some (Return NotServerPlugin,
          extend (preamble false false ++ server_lookups
                  ++ [Invoke collabvm_plugin_make_serverplugin]) []
            (preamble_written so
             ++ written so collabvm_plugin_make_serverplugin) st).
Proof. intros Ha [u Hi] Hm [d Hd]. run_handshake. Qed.

Lemma handshake_server so st p :
  abi_version so = Some abi -> is_Some (init_api so) ->
  make_serverplugin so = Some p -> p <> nullptr ->
  is_Some (delete_serverplugin so) ->
  PluginHandshake abi false false so st
  = Some (Return NoError,
          extend (preamble false false ++ server_lookups
                  ++ [Invoke collabvm_plugin_make_serverplugin]) [p]
            (preamble_written so
             ++ written so collabvm_plugin_make_serverplugin) st).
Proof.
  intros Ha [u Hi] Hm Hp [d Hd]. apply Z.eqb_neq in Hp. run_handshake.
Qed.

(** The Core and Controller passes stop after [init_api]: their bodies
    are still to be written. *)
Lemma handshake_other core ctrl so st :
  (core, ctrl) <> (false, false) ->
  abi_version so = Some abi -> is_Some (init_api so) ->
  PluginHandshake abi core ctrl so st
  = Some (Return NoError,
          extend (preamble core ctrl) [] (preamble_written so) st).
Proof.
  intros Hk Ha [u Hi].
  destruct core, ctrl; try congruence; run_handshake.
Qed.

End Handshake.

(** ** One load attempt *)

Section Load.

Variable abi : Z.
Variable off_end : bool -> bool -> PluginLoadError.

(** Every module falls in one of the seven classes of [load_case]. *)
Lemma classify (so : shared_library) :
  exists out evs ps ws, load_case abi off_end so out evs ps ws.
Proof.
  destruct (abi_version so) as [v|] eqn:Ha;
    [|do 4 eexists; by apply load_no_abi].
  destruct (decide (v = abi)) as [->|Hne];
    [|do 4 eexists; by eapply load_mismatch].
  destruct (init_api so) as [u|] eqn:Hi;
    [|do 4 eexists; by apply load_no_init].
  destruct (make_serverplugin so) as [p|] eqn:Hm;
    [|do 4 eexists; apply load_no_make; eauto].
  destruct (delete_serverplugin so) as [d|] eqn:Hd;
    [|do 4 eexists; apply load_no_delete; eauto].
  destruct (decide (p = nullptr)) as [->|Hp].
  - do 4 eexists. apply load_null; eauto.
  - do 4 eexists. eapply load_server; eauto.
Qed.

(** The code follows the class of the module it is given: with two units
    of fuel or more, a load attempt ends, and its end, boundary
    crossings, registrations and log lines are those of [load_case]. *)
Lemma HandlePluginLoad_follows fuel so st out evs ps ws :
  load_case abi off_end so out evs ps ws ->
  HandlePluginLoad abi off_end (S (S fuel)) false false so st
  = Some (out, extend evs ps ws st).
Proof.
  intros Hc. destruct Hc; cbn [HandlePluginLoad].
  - by rewrite (bind_Throw _ _ _ _ _ (handshake_no_abi abi _ _ so st H)).
  - by rewrite (bind_Return _ _ _ _ _ (handshake_mismatch abi _ _ so st v H H0)).
  - by rewrite (bind_Throw _ _ _ _ _ (handshake_no_init abi _ _ so st H H0)).
  - by rewrite (bind_Throw _ _ _ _ _ (handshake_no_make abi so st H H0 H1)).
  - by rewrite (bind_Throw _ _ _ _ _
                  (handshake_no_delete abi so st H H0 H1 H2)).
  - rewrite (bind_Return _ _ _ _ _ (handshake_null abi so st H H0 H1 H2)).
    rewrite bool_decide_eq_true_2 by done.
    erewrite bind_Return by (by apply handshake_other).
    rewrite bool_decide_eq_false_2 by (intros Hf; by apply Hf).
    unfold ret. rewrite extend_extend.
    by rewrite !app_nil_r, <- !app_assoc.
  - rewrite (bind_Return _ _ _ _ _
               (handshake_server abi so st p H H0 H1 H2 H3)).
    by rewrite bool_decide_eq_false_2 by (intros Hf; by apply Hf).
Qed.

Lemma HandlePluginLoad_cases fuel so st :
  exists out evs ps ws,
    load_case abi off_end so out evs ps ws /\
    HandlePluginLoad abi off_end (S (S fuel)) false false so st
    = Some (out, extend evs ps ws st).
Proof.
  destruct (classify so) as (out & evs & ps & ws & Hc).
  exists out, evs, ps, ws. split; [done|]. by apply HandlePluginLoad_follows.
Qed.

Lemma LoadPlugin_run fuel fs path st so out evs ps ws :
  load fs path = Some so ->
  load_case abi off_end so out evs ps ws ->
  LoadPlugin abi off_end (S (S fuel)) fs path st
  = Some (answer out,
          {| g_PluginSos := g_PluginSos st ++ [Some so];
             g_ServerPlugins := g_ServerPlugins st ++ ps;
             calls := calls st ++ evs;
             spdlog := spdlog st ++ ws ++ reported_after path out |}).
Proof.
  intros Hl Hc. unfold LoadPlugin. rewrite Hl.
  unfold bind, emplace_back_PluginSos.
  erewrite HandlePluginLoad_follows by exact Hc.
  destruct out as [res|e]; [|by rewrite app_nil_r].
  destruct res; cbn; by rewrite ?app_nil_r, <- ?app_assoc.
Qed.

Lemma LoadPlugin_unmapped fuel fs path st :
  load fs path = None ->
  LoadPlugin abi off_end fuel fs path st
  = Some (Throw (library_not_loaded path), st).
Proof. intros Hl. unfold LoadPlugin. by rewrite Hl. Qed.

End Load.

(** ** Lists and traces *)


Lemma preceded_sound (a b : Event) (t : list Event) : forall (seen : bool),
  preceded a b seen t = true ->
  forall pre post, t = pre ++ b :: post -> seen = true \/ a ∈ pre.
Proof.
  induction t as [|e t IH]; intros seen Hc pre post Heq.
  - by destruct pre.
  - cbn in Hc. apply andb_true_iff in Hc as [Hhere Hrest].
    destruct pre as [|e' pre]; simplify_eq/=.
    + rewrite bool_decide_eq_true_2 in Hhere by done. by left.
    + rewrite elem_of_cons.
      destruct (IH _ Hrest _ _ eq_refl) as [Hs|Hin]; [|by auto].
      apply orb_true_iff in Hs as [Hs|Hs]; [by left|].
      apply bool_decide_eq_true_1 in Hs. by auto.
Qed.



(** ** What every run keeps *)

Lemma grows_refl st : grows st st.
Proof.
  exists [], []. rewrite !app_nil_r. repeat split; [constructor|].
  apply not_elem_of_nil.
Qed.

Lemma grows_trans st1 st2 st3 : grows st1 st2 -> grows st2 st3 -> grows st1 st3.
Proof.
  intros (p1 & e1 & Hp1 & He1 & Hn1 & Hd1) (p2 & e2 & Hp2 & He2 & Hn2 & Hd2).
  exists (p1 ++ p2), (e1 ++ e2).
  rewrite Hp2, Hp1, He2, He1, !app_assoc. repeat split.
  - by apply Forall_app.
  - rewrite not_elem_of_app. by split.
Qed.

(** A step that touches neither the registry nor the trace. *)
Lemma grows_same st st' :
  g_ServerPlugins st' = g_ServerPlugins st -> calls st' = calls st ->
  grows st st'.
Proof.
  intros Hp He. exists [], []. rewrite Hp, He, !app_nil_r.
  repeat split; [constructor|apply not_elem_of_nil].
Qed.

Lemma grows_extend evs ps ws st :
  Forall (fun h => h <> nullptr) ps ->
  Invoke collabvm_plugin_delete_serverplugin ∉ evs ->
  grows st (extend evs ps ws st).
Proof. intros Hn Hd. by exists ps, evs. Qed.

Lemma ends_bind {A B : Type} (m : M A) (k : A -> M B) st :
  ends m st ->
  (forall a st1, m st = Some (Return a, st1) -> ends (k a) st1) ->
  ends (bind m k) st.
Proof.
  intros (out & st1 & Hm & Hg) Hk. unfold ends, bind. rewrite Hm.
  destruct out as [a|e].
  - destruct (Hk a st1 Hm) as (out2 & st2 & Hk2 & Hg2).
    exists out2, st2. split; [done|]. by eapply grows_trans.
  - by exists (Throw e), st1.
Qed.

Lemma ends_same {A : Type} (m : M A) st out st' :
  m st = Some (out, st') ->
  g_ServerPlugins st' = g_ServerPlugins st -> calls st' = calls st ->
  ends m st.
Proof. intros Hm Hp He. exists out, st'. split; [done|]. by apply grows_same. Qed.

Lemma ends_for_each {A : Type} (body : A -> M unit) (l : list A) :
  (forall x st, ends (body x) st) -> forall st, ends (for_each l body) st.
Proof.
  intros Hbody. induction l as [|x l IH]; intros st.
  - by eapply ends_same.
  - cbn [for_each]. apply ends_bind; [apply Hbody|]. intros _ st1 _. apply IH.
Qed.

(** ** The start-up scan *)

Section Scan.

Variable abi : Z.
Variable off_end : bool -> bool -> PluginLoadError.

Lemma load_case_non_null so out evs ps ws :
  load_case abi off_end so out evs ps ws -> Forall (fun h => h <> nullptr) ps.
Proof. intros Hc. destruct Hc; repeat constructor. assumption. Qed.

Lemma load_case_no_destructor so out evs ps ws :
  load_case abi off_end so out evs ps ws ->
  Invoke collabvm_plugin_delete_serverplugin ∉ evs.
Proof.
  intros Hc H.
  destruct Hc; unfold preamble, server_lookups in H; cbn in H;
    by decide_trace.
Qed.



Lemma ends_LoadPlugin fuel fs path st :
  ends (LoadPlugin abi off_end (S (S fuel)) fs path) st.
Proof.
  destruct (load fs path) as [so|] eqn:Hl.
  - destruct (classify abi off_end so) as (out & evs & ps & ws & Hc).
    do 2 eexists. split; [by eapply LoadPlugin_run|].
    exists ps, evs. repeat split.
    + by eapply load_case_non_null.
    + by eapply load_case_no_destructor.
  - eapply ends_same; [by apply LoadPlugin_unmapped|done|done].
Qed.

Lemma ends_scan_body fuel fs it st :
  ends (log Info "Going to load plugin {}" [it] ;;
        do ok <- LoadPlugin abi off_end (S (S fuel)) fs it ;
        if negb ok then log Warning "Plugin {} failed to load :(" [it]
        else ret tt) st.
Proof.
  apply ends_bind; [by eapply ends_same|]. intros _ st1 _.
  apply ends_bind; [apply ends_LoadPlugin|]. intros ok st2 _.
  destruct ok; by eapply ends_same.
Qed.

(** [Init] comes to an end from every state and for every directory,
    and keeps the registry and the trace as [grows] says. *)
Lemma ends_Init fuel fs st : ends (Init abi off_end (S (S fuel)) fs) st.
Proof.
  unfold Init.
  apply ends_bind; [by eapply ends_same|]. intros _ st1 _.
  apply ends_bind.
  { destruct (negb (is_directory fs) || negb (exists_ fs)).
    - apply ends_bind; [by eapply ends_same|]. intros _ st2 _.
      apply ends_bind.
      + do 2 eexists. split; [apply emit_run|].
        apply grows_extend; [constructor|]. intros H. by decide_trace.
      + intros _ st3 _. destruct (create_directory fs); by eapply ends_same.
    - by eapply ends_same. }
  intros _ st2 _.
  apply ends_bind; [|intros _ st3 _; by eapply ends_same].
  apply ends_for_each. intros it st'. apply ends_scan_body.
Qed.



End Scan.


(** ** Order of the handshake *)

(** C4: a module without the [abi_version] export is not answered with
    [NotPlugin].  The lookup raises [system_error]; the null test that
    would return [NotPlugin] is never reached, and the exception leaves
    [HandlePluginLoad], [LoadPlugin] and [Init] in turn.  No other
    symbol has been looked up. *)
Theorem C4_missing_abi_version_raises :
  (exists st',
     HandlePluginLoad host_abi returns_res 3 false false not_a_plugin initial
     = Some (Throw (symbol_not_found collabvm_plugin_abi_version), st') /\
     resolved (calls st') = [collabvm_plugin_abi_version] /\
     occurrences (Invoke collabvm_plugin_abi_version) (calls st') = 0%nat) /\
  (exists st',
     Init host_abi returns_res 3 (single "plugins/other.so" not_a_plugin)
       initial
     = Some (Throw (symbol_not_found collabvm_plugin_abi_version), st')).
Proof.
  split.
  - eexists. split; [by vm_compute|]. split; by vm_compute.
  - eexists. by vm_compute.
Qed.

(** C3: a module whose [abi_version] export returns a value other than
    the host's [PLUGIN_ABI_VERSION] is answered with [AbiMismatch] after
    the Server pass alone, and [init_api] is neither looked up nor
    called during its load attempt. *)
Theorem C3_abi_mismatch_before_init_api
    (abi : Z) (off_end : bool -> bool -> PluginLoadError) (fuel : nat)
    (so : shared_library) (st : State) (v : Z) :
  abi_version so = Some v -> v <> abi ->
  exists evs ws,
    HandlePluginLoad abi off_end (S fuel) false false so st
    = Some (Return AbiMismatch, extend evs [] ws st) /\
    probes evs = [Server] /\
    (Resolve collabvm_plugin_init_api ∉ evs) /\
    (Invoke collabvm_plugin_init_api ∉ evs).
Proof.
  intros Ha Hne.
  exists [Handshake false false; Resolve collabvm_plugin_abi_version;
          Invoke collabvm_plugin_abi_version],
         (written so collabvm_plugin_abi_version).
  split; [|split; [done|split]].
  - cbn [HandlePluginLoad].
    by rewrite (bind_Return _ _ _ _ _
                  (handshake_mismatch abi _ _ so st v Ha Hne)).
  - intros H. by decide_trace.
  - intros H. by decide_trace.
Qed.

Lemma C3_witness :
  exists evs ws,
    HandlePluginLoad host_abi returns_res 1 false false old_abi initial
    = Some (Return AbiMismatch, extend evs [] ws initial) /\
    probes evs = [Server] /\
    (Resolve collabvm_plugin_init_api ∉ evs) /\
    (Invoke collabvm_plugin_init_api ∉ evs).
Proof.
  apply (C3_abi_mismatch_before_init_api host_abi returns_res 0 old_abi initial 0).
  - reflexivity.
  - unfold host_abi. lia.
Defined.

(** ** Kind probing *)

(** C1, as the code has it: for a module that passes the ABI check and
    exports [init_api], no kind is attempted twice; when the server
    factory returns null (its destructor export being present) the
    Server pass is followed by a Core pass; and when the server factory
    or its destructor export is missing, no other kind is tried and
    nothing is registered: the load attempt ends after the Server pass
    alone. *)
Theorem C1_null_factory_advances_to_Core
    (abi : Z) (off_end : bool -> bool -> PluginLoadError) (fuel : nat)
    (so : shared_library) (st : State) :
  abi_version so = Some abi -> is_Some (init_api so) ->
  exists out evs ps ws,
    HandlePluginLoad abi off_end (S (S fuel)) false false so st
    = Some (out, extend evs ps ws st) /\
    NoDup (probes evs) /\
    (make_serverplugin so = Some nullptr ->
     is_Some (delete_serverplugin so) ->
     exists rest, probes evs = Server :: Core :: rest) /\
    (make_serverplugin so = None \/ delete_serverplugin so = None ->
     probes evs = [Server] /\ ps = []).
Proof.
  intros Ha Hi.
  destruct (HandlePluginLoad_cases abi off_end fuel so st)
    as (out & evs & ps & ws & Hc & Hrun).
  exists out, evs, ps, ws. split; [exact Hrun|].
  destruct Hc as [Ha'|v Ha' Hv|Ha' Hi'|_ _ Hm|_ _ Hm Hd|_ _ Hm Hd
                  |p _ _ Hm Hp Hd]; try congruence.
  - destruct Hi as [u Hi]. congruence.
  - split; [|split].
    + cbn. apply NoDup_singleton.
    + intros Hm'. congruence.
    + done.
  - split; [|split].
    + cbn. apply NoDup_singleton.
    + intros _ [d Hd']. congruence.
    + done.
  - split; [|split].
    + cbn. apply NoDup_cons. split; [|apply NoDup_singleton].
      intros H. by decide_trace.
    + intros _ _. by exists [].
    + destruct Hd as [d Hd]. intros [?|?]; congruence.
  - split; [|split].
    + cbn. apply NoDup_singleton.
    + intros Hm'. congruence.
    + destruct Hd as [d Hd]. intros [?|?]; congruence.
Qed.

Lemma C1_witness :
  (exists out evs ps ws rest,
     HandlePluginLoad host_abi returns_res 2 false false null_factory initial
     = Some (out, extend evs ps ws initial) /\
     probes evs = Server :: Core :: rest) /\
  (exists out evs ws,
     HandlePluginLoad host_abi returns_res 2 false false no_factory initial
     = Some (out, extend evs [] ws initial) /\
     probes evs = [Server]).
Proof.
  split.
  - destruct (C1_null_factory_advances_to_Core host_abi returns_res 0
                null_factory initial eq_refl (ex_intro _ tt eq_refl))
      as (out & evs & ps & ws & Hrun & _ & Hnull & _).
    destruct (Hnull eq_refl (ex_intro _ 8192 eq_refl)) as (rest & Hrest).
    exists out, evs, ps, ws, rest. split; assumption.
  - destruct (C1_null_factory_advances_to_Core host_abi returns_res 0
                no_factory initial eq_refl (ex_intro _ tt eq_refl))
      as (out & evs & ps & ws & Hrun & _ & _ & Hmiss).
    destruct (Hmiss (or_introl eq_refl)) as (Hp & Hps).
    exists out, evs, ws. split; [|assumption].
    rewrite <- Hps. exact Hrun.
Defined.

(** C1, as stated, fails: a module lacking the server factory is not
    tried as any further kind, its load attempt ending with the failed
    lookup after the Server pass; and a module whose server factory
    returns null is handshaken as Server and then as Core only. *)
Lemma C1_counterexample :
  (exists st',
     HandlePluginLoad host_abi returns_res 3 false false no_factory initial
     = Some (Throw (symbol_not_found collabvm_plugin_make_serverplugin), st') /\
     probes (calls st') = [Server]) /\
  (exists res st',
     HandlePluginLoad host_abi returns_res 3 false false null_factory initial
     = Some (Return res, st') /\
     probes (calls st') = [Server; Core] /\
     Controller ∉ probes (calls st')).
Proof.
  split.
  - eexists. split; [by vm_compute|reflexivity].
  - do 2 eexists. split; [by vm_compute|]. split; [reflexivity|].
    cbn. intros H. by decide_trace.
Qed.




(** ** The registry *)

(** C5, as the code has it: a load attempt registers at most one
    handle; a registered handle is the non-null pointer returned by the
    server factory of a module whose destructor export was looked up
    and found; and what the registry gains is that pointer alone. *)
Theorem C5_registry_stores_handles_only
    (abi : Z) (off_end : bool -> bool -> PluginLoadError) (fuel : nat)
    (so : shared_library) (st : State) :
  exists out evs ps ws st',
    HandlePluginLoad abi off_end (S (S fuel)) false false so st
    = Some (out, st') /\
    st' = extend evs ps ws st /\
    g_ServerPlugins st' = g_ServerPlugins st ++ ps /\
    (ps = [] \/
     exists h, ps = [h] /\
       make_serverplugin so = Some h /\ h <> nullptr /\
       is_Some (delete_serverplugin so) /\
       Resolve collabvm_plugin_delete_serverplugin ∈ evs).
Proof.
  destruct (HandlePluginLoad_cases abi off_end fuel so st)
    as (out & evs & ps & ws & Hc & Hrun).
  exists out, evs, ps, ws, (extend evs ps ws st).
  split; [exact Hrun|]. split; [reflexivity|]. split; [reflexivity|].
  destruct Hc as [| | | | | |p Ha Hi Hm Hp Hd]; try (by left).
  right. exists p. repeat split; try assumption.
  cbn. rewrite !elem_of_cons. tauto.
Qed.

(** C5, as stated, fails: the destructor export of the owning module
    cannot be read back from the registry.  Two modules that differ in
    their destructor export only leave the same registry behind. *)
Lemma C5_counterexample :
  ~ exists destructor_of : list ptr -> ptr -> option Z,
      forall so out st',
        HandlePluginLoad host_abi returns_res 3 false false so initial
        = Some (out, st') ->
        forall h, h ∈ g_ServerPlugins st' ->
          destructor_of (g_ServerPlugins st') h = delete_serverplugin so.
Proof.
  intros (destructor_of & Hpaired).
  pose proof (Hpaired stub_server) as H1.
  pose proof (Hpaired stub_server') as H2.
  vm_compute in H1, H2.
  specialize (H1 _ _ eq_refl 4096 (list_elem_of_here _ _)).
  specialize (H2 _ _ eq_refl 4096 (list_elem_of_here _ _)).
  cbn in H1, H2. congruence.
Qed.

(** C7, as the code has it: a successful Server handshake appends the
    factory's pointer to the registry and reports [NoError] also when
    that pointer is registered already; the handle is then stored a
    second time. *)
Theorem C7_registration_appends_unconditionally
    (abi : Z) (so : shared_library) (st : State) (h : ptr) :
  abi_version so = Some abi -> is_Some (init_api so) ->
  make_serverplugin so = Some h -> h <> nullptr ->
  is_Some (delete_serverplugin so) ->
  h ∈ g_ServerPlugins st ->
  exists st',
    PluginHandshake abi false false so st = Some (Return NoError, st') /\
    g_ServerPlugins st' = g_ServerPlugins st ++ [h] /\
    ~ NoDup (g_ServerPlugins st').
Proof.
  intros Ha Hi Hm Hh Hd Hin.
  eexists. split; [by apply handshake_server|]. split; [reflexivity|].
  cbn. rewrite NoDup_app. intros (_ & Hdisj & _).
  apply (Hdisj h Hin). apply list_elem_of_here.
Qed.

Lemma C7_witness :
  exists st',
    PluginHandshake host_abi false false stub_server
      (extend [] [4096] [] initial)
    = Some (Return NoError, st') /\
    g_ServerPlugins st' = [4096; 4096] /\
    ~ NoDup (g_ServerPlugins st').
Proof.
  apply (C7_registration_appends_unconditionally host_abi stub_server
           (extend [] [4096] [] initial) 4096).
  - reflexivity.
  - exists tt. reflexivity.
  - reflexivity.
  - unfold nullptr. lia.
  - exists 8192. reflexivity.
  - apply list_elem_of_here.
Defined.

(** C7, as stated, fails: when two directory entries lead to the same
    module, whose factory returns the same pointer both times, both
    loads succeed, no warning or error is logged, and the handle is in
    the registry twice. *)
Lemma C7_counterexample :
  exists st',
    Init host_abi returns_res 3 (linked_twice stub_server) initial
    = Some (Return true, st') /\
    g_ServerPlugins st' = [4096; 4096] /\
    filter (fun e => level e <> Info) (spdlog st') = [].
Proof.
  eexists. split; [by vm_compute|]. split; by vm_compute.
Qed.

(** C6: [UnloadPlugins] does not do what is asked of it.  After the
    stub Server plugin has been loaded, [UnloadPlugins] calls no
    destructor export: the handle stays in the registry, the library
    list is untouched, and a single informational message is logged. *)
Theorem C6_UnloadPlugins_calls_no_destructor :
  exists st1 st2,
    Init host_abi returns_res 3 (single "plugins/stub.so" stub_server) initial
    = Some (Return true, st1) /\
    g_ServerPlugins st1 = [4096] /\
    UnloadPlugins st1 = Some (Return tt, st2) /\
    occurrences (Invoke collabvm_plugin_delete_serverplugin) (calls st2) = 0%nat /\
    g_ServerPlugins st2 = [4096] /\
    g_PluginSos st2 = g_PluginSos st1 /\
    calls st2 = calls st1.
Proof.
  do 2 eexists. split; [by vm_compute|]. split; [by vm_compute|].
  split; [by vm_compute|]. repeat split; by vm_compute.
Qed.

(** ** Reporting *)

(** C8: a module that fails is not contained.  A directory entry that
    cannot be mapped makes the library constructor raise, and a module
    without the [abi_version] export makes the lookup raise; either
    exception leaves [Init], which has logged no warning naming the
    file and never gets to the entries that follow: the stub plugin
    behind the text file is not loaded. *)
Theorem C8_failing_module_aborts_Init :
  (exists st',
     Init host_abi returns_res 3 notes_then_stub initial
     = Some (Throw (library_not_loaded "plugins/notes.txt"), st') /\
     warnings_naming "plugins/notes.txt" (spdlog st') = [] /\
     spdlog st' = [going_to_load "plugins/notes.txt"] /\
     g_ServerPlugins st' = [] /\
     calls st' = []) /\
  (exists st',
     Init host_abi returns_res 3 (single "plugins/other.so" not_a_plugin)
       initial
     = Some (Throw (symbol_not_found collabvm_plugin_abi_version), st') /\
     warnings_naming "plugins/other.so" (spdlog st') = [] /\
     spdlog st' = [going_to_load "plugins/other.so"]).
Proof.
  split.
  - eexists. split; [by vm_compute|]. repeat split; by vm_compute.
  - eexists. split; [by vm_compute|]. split; by vm_compute.
Qed.

(** The one failure [LoadPlugin] does report, an ABI mismatch, gets
    exactly one warning naming the file, and [Init] goes on. *)
Example mismatch_gets_one_warning :
  exists st',
    Init host_abi returns_res 3 (single "plugins/old.so" old_abi) initial
    = Some (Return true, st') /\
    warnings_naming "plugins/old.so" (spdlog st')
    = [{| level := Warning; format := "Plugin {} failed to load :(";
          args := ["plugins/old.so"] |}].
Proof.
  eexists. split; by vm_compute.
Qed.

(** C9: the plugins directory is missing.  If it can be created (and is
    empty then), [Init] creates it, logs one informational line and
    returns [true].  If the creation fails, [create_directory] raises
    [filesystem_error]; [Init] does not catch it, so it does not return
    success: the error reaches the caller, nothing having been
    loaded. *)
Theorem C9_missing_directory
    (abi : Z) (off_end : bool -> bool -> PluginLoadError) (fuel : nat)
    (fs : Filesystem) (st : State) :
  exists_ fs = false ->
  (create_directory fs = true -> directory_iterator fs = [] ->
   exists st',
     Init abi off_end fuel fs st = Some (Return true, st') /\
     calls st' = calls st ++ [CreateDirectory true] /\
     spdlog st' = spdlog st ++ [creating_folder] /\
     g_ServerPlugins st' = g_ServerPlugins st) /\
  (create_directory fs = false ->
   exists st',
     Init abi off_end fuel fs st = Some (Throw filesystem_error, st') /\
     calls st' = calls st ++ [CreateDirectory false] /\
     spdlog st' = spdlog st ++ [creating_folder] /\
     g_ServerPlugins st' = g_ServerPlugins st).
Proof.
  intros Hex. split.
  - intros Hc Hempty. unfold Init. rewrite Hex, Hc, Hempty, orb_true_r.
    eexists. split; [reflexivity|]. by repeat split.
  - intros Hc. unfold Init. rewrite Hex, Hc, orb_true_r.
    eexists. split; [reflexivity|]. by repeat split.
Qed.

Lemma C9_witness :
  (exists st',
     Init host_abi returns_res 2 first_run initial = Some (Return true, st') /\
     calls st' = [CreateDirectory true]) /\
  (exists st',
     Init host_abi returns_res 2 read_only_cwd initial
     = Some (Throw filesystem_error, st') /\
     calls st' = [CreateDirectory false]).
Proof.
  destruct (C9_missing_directory host_abi returns_res 2 first_run initial
              eq_refl) as (Hcreated & _).
  destruct (C9_missing_directory host_abi returns_res 2 read_only_cwd initial
              eq_refl) as (_ & Hfailed).
  split.
  - destruct (Hcreated eq_refl eq_refl) as (st' & Hrun & Hcalls & _).
    exists st'. by split.
  - destruct (Hfailed eq_refl) as (st' & Hrun & Hcalls & _).
    exists st'. by split.
Defined.

(** ** The configuration store *)

Section Cells.

Import ConfigStore.

Variable store : gmap string Value.

Lemma Exists_Set key v : Exists key (Set_ key v store) = true.
Proof.
  unfold Exists, Set_. apply bool_decide_eq_true_2.
  rewrite lookup_insert_eq. by eexists.
Qed.

Lemma As_Set key v T :
  As T key (Set_ key v store)
  = if bool_decide (type_of v = T) then inr v else inl InvalidType.
Proof. unfold As, Set_. by rewrite lookup_insert_eq. Qed.

Lemma Is_Set key v T :
  Is T key (Set_ key v store) = bool_decide (type_of v = T).
Proof. unfold Is, Set_. by rewrite lookup_insert_eq. Qed.

Lemma Exists_Remove key : Exists key (Remove key store) = false.
Proof.
  unfold Exists, Remove. apply bool_decide_eq_false_2.
  rewrite lookup_delete_eq. by intros [v Hv].
Qed.

Lemma As_Remove key T : As T key (Remove key store) = inl NonExistentValue.
Proof. unfold As, Remove. by rewrite lookup_delete_eq. Qed.

End Cells.

(** C10: in any store, once a 64-bit unsigned integer has been set
    under key ["value"], [Exists()] is true, [Is<uint64>()] is true and
    [As<string>()] fails with [InvalidType]; once the cell has then been
    removed, [Exists()] is false and [As<uint64>()] fails with
    [NonExistentValue]. *)
Theorem C10_uint64_cell_lifecycle
    (store : gmap string ConfigStore.Value) (n : Z) :
  let set := ConfigStore.Set_ "value" (ConfigStore.uint64 n) store in
  let removed := ConfigStore.Remove "value" set in
  ConfigStore.Exists "value" set = true /\
  ConfigStore.Is ConfigStore.TUInt64 "value" set = true /\
  ConfigStore.As ConfigStore.TString "value" set
  = inl ConfigStore.InvalidType /\
  ConfigStore.Exists "value" removed = false /\
  ConfigStore.As ConfigStore.TUInt64 "value" removed
  = inl ConfigStore.NonExistentValue.
Proof.
  intros set removed. subst set removed.
  rewrite Exists_Set, Is_Set, As_Set, Exists_Remove, As_Remove.
  repeat split.
Qed.

(** * Further properties of the plugin manager *)

(** ** The start-up scan *)

(** X2: an empty plugins directory that is there, or can be created.
    [Init] returns [true], registers no handle and crosses no module
    boundary; the library list is resized to five entries, and the only
    trace of the call is the creation of the directory when it was
    missing. *)
Theorem X2_Init_empty_directory
    (abi : Z) (off_end : bool -> bool -> PluginLoadError) (fuel : nat)
    (fs : Filesystem) (st : State) :
  directory_iterator fs = [] ->
  (directory_missing fs = true -> create_directory fs = true) ->
  exists st',
    Init abi off_end fuel fs st = Some (Return true, st') /\
    g_ServerPlugins st' = g_ServerPlugins st /\
    g_PluginSos st' = resize 5 None (g_PluginSos st) /\
    calls st'
    = calls st ++ (if directory_missing fs
                   then [CreateDirectory true] else []) /\
    spdlog st'
    = spdlog st ++ (if directory_missing fs then [creating_folder] else []).
Proof.
  unfold directory_missing. intros Hempty Hdir. unfold Init.
  rewrite Hempty.
  destruct (negb (is_directory fs) || negb (exists_ fs)).
  - rewrite Hdir by done. eexists. split; [reflexivity|]. by repeat split.
  - eexists. split; [reflexivity|]. cbn. by rewrite !app_nil_r.
Qed.

Lemma X2_witness :
  exists st',
    Init host_abi returns_res 2 empty_directory initial
    = Some (Return true, st') /\
    g_ServerPlugins st' = [] /\
    g_PluginSos st' = resize 5 None [] /\
    calls st' = [] /\
    spdlog st' = [].
Proof.
  apply (X2_Init_empty_directory host_abi returns_res 2 empty_directory initial).
  - reflexivity.
  - discriminate.
Defined.





(** X5: [Init] keeps null out of the registry: if no registered handle
    is null before, none is after, however [Init] ends. *)
Theorem X5_Init_keeps_handles_non_null
    (abi : Z) (off_end : bool -> bool -> PluginLoadError) (fuel : nat)
    (fs : Filesystem) (st : State) :
  Forall (fun h => h <> nullptr) (g_ServerPlugins st) ->
  exists out st',
    Init abi off_end (S (S fuel)) fs st = Some (out, st') /\
    Forall (fun h => h <> nullptr) (g_ServerPlugins st').
Proof.
  intros Hinv.
  destruct (ends_Init abi off_end fuel fs st)
    as (out & st' & Hrun & ps & evs & Hreg & _ & Hps & _).
  exists out, st'. split; [exact Hrun|].
  rewrite Hreg. by apply Forall_app.
Qed.

Lemma X5_witness :
  exists out st',
    Init host_abi returns_res 2 (linked_twice null_factory)
      (extend [] [4096] [] initial) = Some (out, st') /\
    Forall (fun h => h <> nullptr) (g_ServerPlugins st').
Proof.
  apply (X5_Init_keeps_handles_non_null host_abi returns_res 0
           (linked_twice null_factory) (extend [] [4096] [] initial)).
  cbn. apply Forall_cons. split; [unfold nullptr; lia|apply Forall_nil_2].
Defined.

(** X6: [Init] never calls a destructor export, whatever the directory
    holds and however [Init] ends: no [delete_serverplugin] call is
    among the boundary crossings it adds. *)
Theorem X6_Init_never_calls_a_destructor
    (abi : Z) (off_end : bool -> bool -> PluginLoadError) (fuel : nat)
    (fs : Filesystem) (st : State) :
  exists out st' evs,
    Init abi off_end (S (S fuel)) fs st = Some (out, st') /\
    calls st' = calls st ++ evs /\
    Invoke collabvm_plugin_delete_serverplugin ∉ evs.
Proof.
  destruct (ends_Init abi off_end fuel fs st)
    as (out & st' & Hrun & ps & evs & _ & Hcalls & _ & Hno).
  by exists out, st', evs.
Qed.







(** ** The handshake, continued *)

(** X10: the ABI check comes first.  In a load attempt, any lookup of
    an export other than [abi_version] happens after [abi_version] has
    been called, and happens only if the version it returned is the
    host's. *)
Theorem X10_abi_checked_before_other_exports
    (abi : Z) (off_end : bool -> bool -> PluginLoadError) (fuel : nat)
    (so : shared_library) (st : State) :
  exists out evs ps ws,
    HandlePluginLoad abi off_end (S (S fuel)) false false so st
    = Some (out, extend evs ps ws st) /\
    (forall s, s <> collabvm_plugin_abi_version ->
       forall pre post, evs = pre ++ Resolve s :: post ->
       Invoke collabvm_plugin_abi_version ∈ pre) /\
    (forall s, s <> collabvm_plugin_abi_version ->
       Resolve s ∈ evs -> abi_version so = Some abi).
Proof.
  destruct (HandlePluginLoad_cases abi off_end fuel so st)
    as (out & evs & ps & ws & Hc & Hrun).
  exists out, evs, ps, ws. split; [exact Hrun|]. split.
  - intros s Hs pre post Heq.
    assert (preceded (Invoke collabvm_plugin_abi_version) (Resolve s)
              false evs = true) as Hpre
      by (destruct Hc, s; try congruence; reflexivity).
    by destruct (preceded_sound _ _ _ _ Hpre pre post Heq).
  - intros s Hs Hin.
    destruct Hc; try assumption; by decide_trace.
Qed.

Lemma X10_witness :
  exists out evs ps ws,
    HandlePluginLoad host_abi returns_res 2 false false stub_server initial
    = Some (out, extend evs ps ws initial) /\
    Invoke collabvm_plugin_abi_version
      ∈ [Handshake false false; Resolve collabvm_plugin_abi_version;
         Invoke collabvm_plugin_abi_version] /\
    abi_version stub_server = Some host_abi.
Proof.
  destruct (X10_abi_checked_before_other_exports host_abi returns_res 0
              stub_server initial)
    as (out & evs & ps & ws & Hrun & Horder & Hgate).
  assert (evs = preamble false false ++ server_lookups
                ++ [Invoke collabvm_plugin_make_serverplugin]) as Hevs
    by (cbv in Hrun |- *; congruence).
  exists out, evs, ps, ws. split; [exact Hrun|]. split.
  - apply (Horder collabvm_plugin_init_api ltac:(discriminate) _
             (Invoke collabvm_plugin_init_api :: server_lookups
              ++ [Invoke collabvm_plugin_make_serverplugin])).
    exact Hevs.
  - apply (Hgate collabvm_plugin_init_api ltac:(discriminate)).
    rewrite Hevs. cbn. apply list_elem_of_further, list_elem_of_further,
      list_elem_of_further, list_elem_of_here.
Defined.

(** X11: the server factory is called only on a module that exports
    both the factory and the destructor, and only after both have been
    looked up. *)
Theorem X11_factory_called_only_with_both_exports
    (abi : Z) (off_end : bool -> bool -> PluginLoadError) (fuel : nat)
    (so : shared_library) (st : State) :
  exists out evs ps ws,
    HandlePluginLoad abi off_end (S (S fuel)) false false so st
    = Some (out, extend evs ps ws st) /\
    (Invoke collabvm_plugin_make_serverplugin ∈ evs ->
     is_Some (make_serverplugin so) /\ is_Some (delete_serverplugin so)) /\
    (forall pre post,
       evs = pre ++ Invoke collabvm_plugin_make_serverplugin :: post ->
       Resolve collabvm_plugin_make_serverplugin ∈ pre /\
       Resolve collabvm_plugin_delete_serverplugin ∈ pre).
Proof.
  destruct (HandlePluginLoad_cases abi off_end fuel so st)
    as (out & evs & ps & ws & Hc & Hrun).
  exists out, evs, ps, ws. split; [exact Hrun|]. split.
  - intros Hin.
    destruct Hc as [| | | | | |p ? ? Hm];
      unfold preamble, server_lookups in Hin; cbn in Hin;
      try (by decide_trace); split; try assumption; by eexists.
  - intros pre post Heq.
    assert (preceded (Resolve collabvm_plugin_make_serverplugin)
              (Invoke collabvm_plugin_make_serverplugin) false evs = true)
      as Hmake by (destruct Hc; reflexivity).
    assert (preceded (Resolve collabvm_plugin_delete_serverplugin)
              (Invoke collabvm_plugin_make_serverplugin) false evs = true)
      as Hdelete by (destruct Hc; reflexivity).
    split.
    + by destruct (preceded_sound _ _ _ _ Hmake pre post Heq).
    + by destruct (preceded_sound _ _ _ _ Hdelete pre post Heq).
Qed.

Lemma X11_witness :
  exists out evs ps ws,
    HandlePluginLoad host_abi returns_res 2 false false stub_server initial
    = Some (out, extend evs ps ws initial) /\
    is_Some (make_serverplugin stub_server) /\
    is_Some (delete_serverplugin stub_server).
Proof.
  destruct (X11_factory_called_only_with_both_exports host_abi returns_res 0
              stub_server initial)
    as (out & evs & ps & ws & Hrun & Hboth & _).
  assert (evs = preamble false false ++ server_lookups
                ++ [Invoke collabvm_plugin_make_serverplugin]) as Hevs
    by (cbv in Hrun |- *; congruence).
  exists out, evs, ps, ws. split; [exact Hrun|].
  apply Hboth. rewrite Hevs. cbn.
  do 7 apply list_elem_of_further. apply list_elem_of_here.
Defined.

(** X12: the Core and Controller instantiations.  A load attempt
    entered as Core or Controller makes a single handshake pass of its
    own kind, never looks up or calls a server export and registers
    nothing; it ends with the exception of a failed lookup of
    [abi_version] or [init_api], with [AbiMismatch], or, when the pass
    reports [NoError], by flowing off the end. *)
Theorem X12_other_kinds_register_nothing
    (abi : Z) (off_end : bool -> bool -> PluginLoadError) (fuel : nat)
    (core ctrl : bool) (so : shared_library) (st : State) :
  (core, ctrl) <> (false, false) ->
  exists out evs ws,
    HandlePluginLoad abi off_end (S fuel) core ctrl so st
    = Some (out, extend evs [] ws st) /\
    probes evs = [kind_of core ctrl] /\
    (forall s, Resolve s ∈ evs ->
       s = collabvm_plugin_abi_version \/ s = collabvm_plugin_init_api) /\
    (forall s, Invoke s ∈ evs ->
       s = collabvm_plugin_abi_version \/ s = collabvm_plugin_init_api) /\
    (out = Throw (symbol_not_found collabvm_plugin_abi_version) \/
     out = Throw (symbol_not_found collabvm_plugin_init_api) \/
     out = Return AbiMismatch \/
     out = Return (off_end core ctrl)).
Proof.
  intros Hk. cbn [HandlePluginLoad].
  assert (forall out evs ws,
            probes evs = [kind_of core ctrl] ->
            (forall e, e ∈ evs -> e ∈ preamble core ctrl) ->
            out = Throw (symbol_not_found collabvm_plugin_abi_version) \/
            out = Throw (symbol_not_found collabvm_plugin_init_api) \/
            out = Return AbiMismatch \/
            out = Return (off_end core ctrl) ->
            exists out' evs' ws',
              Some (out, extend evs [] ws st)
              = Some (out', extend evs' [] ws' st) /\
              probes evs' = [kind_of core ctrl] /\
              (forall s, Resolve s ∈ evs' ->
                 s = collabvm_plugin_abi_version \/
                 s = collabvm_plugin_init_api) /\
              (forall s, Invoke s ∈ evs' ->
                 s = collabvm_plugin_abi_version \/
                 s = collabvm_plugin_init_api) /\
              (out' = Throw (symbol_not_found collabvm_plugin_abi_version) \/
               out' = Throw (symbol_not_found collabvm_plugin_init_api) \/
               out' = Return AbiMismatch \/
               out' = Return (off_end core ctrl))) as Hsum.
  { intros out evs ws Hp Hsub Hout. exists out, evs, ws.
    split; [done|]. split; [done|]. split; [|split; [|done]].
    - intros s H. apply Hsub in H. unfold preamble in H.
      decide_trace; simplify_eq; auto.
    - intros s H. apply Hsub in H. unfold preamble in H.
      decide_trace; simplify_eq; auto. }
  destruct (abi_version so) as [v|] eqn:Ha.
  2:{ rewrite (bind_Throw _ _ _ _ _ (handshake_no_abi abi core ctrl so st Ha)).
      apply Hsum; [done| |by auto].
      intros e H. unfold preamble. decide_trace; subst;
        rewrite !elem_of_cons; auto 10. }
  destruct (decide (v = abi)) as [->|Hne].
  2:{ rewrite (bind_Return _ _ _ _ _
                 (handshake_mismatch abi core ctrl so st v Ha Hne)).
      rewrite bool_decide_eq_true_2 by done. unfold ret.
      apply Hsum; [done| |by auto 10].
      intros e H. unfold preamble. decide_trace; subst;
        rewrite !elem_of_cons; auto 10. }
  destruct (init_api so) as [u|] eqn:Hi.
  2:{ rewrite (bind_Throw _ _ _ _ _
                 (handshake_no_init abi core ctrl so st Ha Hi)).
      apply Hsum; [done| |by auto].
      intros e H. unfold preamble. decide_trace; subst;
        rewrite !elem_of_cons; auto 10. }
  erewrite bind_Return by (by apply handshake_other).
  rewrite bool_decide_eq_false_2 by (intros Hf; by apply Hf). unfold ret.
  apply Hsum; [done|done|by auto 10].
Qed.

Lemma X12_witness :
  exists out evs ws,
    HandlePluginLoad host_abi returns_res 1 true false stub_server initial
    = Some (out, extend evs [] ws initial) /\
    probes evs = [Core] /\
    (forall s, Resolve s ∈ evs ->
       s = collabvm_plugin_abi_version \/ s = collabvm_plugin_init_api) /\
    (forall s, Invoke s ∈ evs ->
       s = collabvm_plugin_abi_version \/ s = collabvm_plugin_init_api) /\
    (out = Throw (symbol_not_found collabvm_plugin_abi_version) \/
     out = Throw (symbol_not_found collabvm_plugin_init_api) \/
     out = Return AbiMismatch \/
     out = Return (returns_res true false)).
Proof.
  apply (X12_other_kinds_register_nothing host_abi returns_res 0 true false
           stub_server initial).
  discriminate.
Defined.

(** X13: how a load attempt fails.  Without an [abi_version] export the
    lookup raises; for another version the attempt returns
    [AbiMismatch]; with [init_api], the server factory or the server
    destructor missing, the lookup of the first missing one raises, in
    the order the code looks them up.  [NotPlugin] and [ExportNotFound]
    are returned in none of these cases: the null tests behind the
    lookups are never reached.  (For a module with all four exports and
    the host's version the table says nothing.) *)
Theorem X13_how_a_load_attempt_fails
    (abi : Z) (off_end : bool -> bool -> PluginLoadError) (fuel : nat)
    (so : shared_library) (st : State) :
  exists out st',
    HandlePluginLoad abi off_end (S (S fuel)) false false so st
    = Some (out, st') /\
    match abi_version so with
    | None => out = Throw (symbol_not_found collabvm_plugin_abi_version)
    | Some v =>
      if v =? abi then
        match init_api so, make_serverplugin so, delete_serverplugin so with
        | None, _, _ =>
          out = Throw (symbol_not_found collabvm_plugin_init_api)
        | Some _, None, _ =>
          out = Throw (symbol_not_found collabvm_plugin_make_serverplugin)
        | Some _, Some _, None =>
          out = Throw (symbol_not_found collabvm_plugin_delete_serverplugin)
        | Some _, Some _, Some _ => True
        end
      else out = Return AbiMismatch
    end.
Proof.
  destruct (HandlePluginLoad_cases abi off_end fuel so st)
    as (out & evs & ps & ws & Hc & Hrun).
  exists out, (extend evs ps ws st). split; [exact Hrun|].
  destruct Hc as [Ha|v Ha Hv|Ha Hi|Ha [u Hi] Hm|Ha [u Hi] [p Hm] Hd
                  |Ha [u Hi] Hm [d Hd]|p Ha [u Hi] Hm Hp [d Hd]]; rewrite Ha.
  - done.
  - apply Z.eqb_neq in Hv. by rewrite Hv.
  - by rewrite Z.eqb_refl, Hi.
  - by rewrite Z.eqb_refl, Hi, Hm.
  - by rewrite Z.eqb_refl, Hi, Hm, Hd.
  - by rewrite Z.eqb_refl, Hi, Hm, Hd.
  - by rewrite Z.eqb_refl, Hi, Hm, Hd.
Qed.

(** ** [LoadPlugin] on a module it rejects *)

(** X14: a module built against another ABI.  [LoadPlugin] answers
    [false] and logs one error naming the path, after anything the
    module wrote while its [abi_version] ran; the module has been asked
    for its version and nothing else, nothing is registered, and the
    library stays in the library list. *)
Theorem X14_LoadPlugin_rejects_other_abi
    (abi : Z) (off_end : bool -> bool -> PluginLoadError) (fuel : nat)
    (fs : Filesystem) (path : string) (st : State)
    (so : shared_library) (v : Z) :
  load fs path = Some so ->
  abi_version so = Some v -> v <> abi ->
  LoadPlugin abi off_end (S (S fuel)) fs path st
  = Some (Return false,
          {| g_PluginSos := g_PluginSos st ++ [Some so];
             g_ServerPlugins := g_ServerPlugins st;
             calls := calls st
                      ++ [Handshake false false;
                          Resolve collabvm_plugin_abi_version;
                          Invoke collabvm_plugin_abi_version];
             spdlog := spdlog st
                       ++ written so collabvm_plugin_abi_version
                       ++ [{| level := Error;
                              format := "plugin {} has an mismatching CollabVM ABI version.";
                              args := [path] |}] |}).
Proof.
  intros Hl Ha Hv.
  rewrite (LoadPlugin_run abi off_end fuel fs path st so _ _ _ _ Hl
             (load_mismatch abi off_end _ v Ha Hv)).
  cbn. by rewrite app_nil_r.
Qed.

Lemma X14_witness :
  exists st',
    LoadPlugin host_abi returns_res 2 (single "plugins/old.so" old_abi)
      "plugins/old.so" initial = Some (Return false, st') /\
    g_ServerPlugins st' = [] /\
    g_PluginSos st' = [Some old_abi].
Proof.
  eexists. split.
  - apply (X14_LoadPlugin_rejects_other_abi host_abi returns_res 0
             (single "plugins/old.so" old_abi) "plugins/old.so" initial
             old_abi 0).
    + reflexivity.
    + reflexivity.
    + unfold host_abi. lia.
  - split; reflexivity.
Defined.

(** X15: a module of the right ABI that lacks [init_api], the server
    factory or the server destructor.  [LoadPlugin] does not return: it
    is left by the exception of the failed lookup.  The library has
    been appended to the library list by then; nothing is registered,
    the factory has not been called, and the log holds nothing but what
    the module wrote itself. *)
Theorem X15_LoadPlugin_on_missing_export
    (abi : Z) (off_end : bool -> bool -> PluginLoadError) (fuel : nat)
    (fs : Filesystem) (path : string) (st : State) (so : shared_library) :
  load fs path = Some so ->
  abi_version so = Some abi ->
  init_api so = None \/ make_serverplugin so = None \/
  delete_serverplugin so = None ->
  exists s st',
    LoadPlugin abi off_end (S (S fuel)) fs path st
    = Some (Throw (symbol_not_found s), st') /\
    s <> collabvm_plugin_abi_version /\
    g_PluginSos st' = g_PluginSos st ++ [Some so] /\
    g_ServerPlugins st' = g_ServerPlugins st /\
    (Invoke collabvm_plugin_make_serverplugin
       ∉ drop (length (calls st)) (calls st')) /\
    (forall e, e ∈ drop (length (spdlog st)) (spdlog st') ->
       exists s', e ∈ written so s').
Proof.
  intros Hl Ha Hmiss.
  assert (exists s evs ws,
            load_case abi off_end so (Throw (symbol_not_found s)) evs [] ws /\
            s <> collabvm_plugin_abi_version /\
            (Invoke collabvm_plugin_make_serverplugin ∉ evs) /\
            (forall e, e ∈ ws -> exists s', e ∈ written so s'))
    as (s & evs & ws & Hc & Hs & Hno & Hws).
  { destruct (init_api so) as [u|] eqn:Hi.
    - destruct (make_serverplugin so) as [p|] eqn:Hm.
      + assert (delete_serverplugin so = None) as Hd
          by (destruct Hmiss as [?|[?|?]]; congruence).
        do 3 eexists. split; [apply load_no_delete; eauto|].
        split; [done|]. split.
        * intros H. unfold preamble, server_lookups in H. cbn in H.
          by decide_trace.
        * intros e H. unfold preamble_written in H.
          apply elem_of_app in H as [H|H]; eauto.
      + do 3 eexists. split; [apply load_no_make; eauto|].
        split; [done|]. split.
        * intros H. unfold preamble in H. cbn in H. by decide_trace.
        * intros e H. unfold preamble_written in H.
          apply elem_of_app in H as [H|H]; eauto.
    - do 3 eexists. split; [by apply load_no_init|].
      split; [done|]. split.
      * intros H. by decide_trace.
      * intros e H. eauto. }
  exists s. eexists.
  split; [exact (LoadPlugin_run abi off_end fuel fs path st so _ _ _ _ Hl Hc)|].
  cbn. rewrite !app_nil_r, !drop_app_length. by repeat split.
Qed.

Lemma X15_witness :
  exists s st',
    LoadPlugin host_abi returns_res 2 (single "plugins/lib.so" no_factory)
      "plugins/lib.so" initial
    = Some (Throw (symbol_not_found s), st') /\
    s <> collabvm_plugin_abi_version /\
    g_PluginSos st' = [Some no_factory] /\
    g_ServerPlugins st' = [] /\
    (Invoke collabvm_plugin_make_serverplugin
       ∉ drop (length (calls initial)) (calls st')) /\
    (forall e, e ∈ drop (length (spdlog initial)) (spdlog st') ->
       exists s', e ∈ written no_factory s').
Proof.
  apply (X15_LoadPlugin_on_missing_export host_abi returns_res 0
           (single "plugins/lib.so" no_factory) "plugins/lib.so" initial
           no_factory).
  - reflexivity.
  - reflexivity.
  - right. left. reflexivity.
Defined.
